(** * baroncs: equilibrium charge states of heavy ions behind a carbon foil

    A shallow embedding of [src/baroncs/charge_state.py] (class
    [ChargeState], after E. Baron et al., 1993) and the properties of its
    methods.

    Conventions of the embedding.

    - Python and numpy floats are idealised as real numbers: arithmetic is
      exact, there is no rounding and no overflow.  The non-finite float
      [nan] (the square root of a negative number, a fractional power of a
      negative base) is kept as a value of its own, [NaN].  There are no
      infinities: where numpy would produce one, in a quotient by zero,
      the embedding produces [NaN] and follows numpy no further; no
      statement below rests on such a value.  Python integers are
      embedded in the reals where they meet floats.
    - An attribute that holds [None] or a number is an [option].
    - A method that raises is a function into [result]; a method that also
      assigns attributes threads the instance explicitly and returns the
      instance it leaves behind together with the outcome, so that the
      assignments made before an exception are visible afterwards, as they
      are in Python.
    - What [pd.read_csv] makes of the packaged [table/elements.csv] is a
      parameter of the table-building code: the file is data. *)

From Stdlib Require Import Reals ZArith List String Bool Lra Lia Psatz.
Import ListNotations.
Local Open Scope string_scope.
Local Open Scope Z_scope.
Local Open Scope R_scope.

(* ================================================================= *)
(** ** Python values, exceptions and numeric primitives *)

Module Py.

(** The exceptions the methods can end in.  [ValueError] carries the
    message of the [raise] statement, which tells the raise sites
    apart. *)
Inductive exn : Type :=
| ValueError (msg : string)
| TypeError
| ZeroDivisionError
| KeyError (key : string).

Inductive result (A : Type) : Type :=
| Ok (a : A)
| Raise (e : exn).
Arguments Ok {A} a.
Arguments Raise {A} e.

Definition bind {A B : Type} (r : result A) (k : A -> result B) : result B :=
  match r with
  | Ok a => k a
  | Raise e => Raise e
  end.

(** [[f x for x in xs]], stopping at the first element that raises. *)
Fixpoint traverse {A B : Type} (f : A -> result B) (xs : list A)
  : result (list B) :=
  match xs with
  | [] => Ok []
  | x :: xs' =>
      bind (f x) (fun y => bind (traverse f xs') (fun ys => Ok (y :: ys)))
  end.

(** A float: a finite real or [nan]. *)
Inductive pyfloat : Type :=
| Fin (x : R)
| NaN.

Definition lift1 (f : R -> R) (a : pyfloat) : pyfloat :=
  match a with
  | Fin x => Fin (f x)
  | NaN => NaN
  end.

Definition lift2 (f : R -> R -> R) (a b : pyfloat) : pyfloat :=
  match a, b with
  | Fin x, Fin y => Fin (f x y)
  | _, _ => NaN
  end.

Definition fadd : pyfloat -> pyfloat -> pyfloat := lift2 Rplus.
Definition fsub : pyfloat -> pyfloat -> pyfloat := lift2 Rminus.
Definition fmul : pyfloat -> pyfloat -> pyfloat := lift2 Rmult.

(** numpy division: a zero divisor gives a non-finite quotient. *)
Definition fdiv (a b : pyfloat) : pyfloat :=
  match a, b with
  | Fin x, Fin y => if Req_dec_T y 0 then NaN else Fin (x / y)
  | _, _ => NaN
  end.

Definition np_exp : pyfloat -> pyfloat := lift1 exp.

(** [np.sqrt]: [nan] on a negative argument. *)
Definition np_sqrt (a : pyfloat) : pyfloat :=
  match a with
  | Fin x => if Rlt_dec x 0 then NaN else Fin (sqrt x)
  | NaN => NaN
  end.

(** [a ** y] for a positive, non-integral exponent [y] (0.447 and 1.67
    in the sources): zero stays zero, a negative base has no real
    power. *)
Definition fpow (a : pyfloat) (y : R) : pyfloat :=
  match a with
  | Fin x =>
      if Rlt_dec 0 x then Fin (Rpower x y)
      else if Req_dec_T x 0 then Fin 0 else NaN
  | NaN => NaN
  end.

(** [x / y] on Python numbers: true division, raising on a zero
    divisor. *)
Definition py_div (x y : R) : result R :=
  if Req_dec_T y 0 then Raise ZeroDivisionError else Ok (x / y).

(** [x ** n] on a Python float with an integer exponent: zero cannot be
    raised to a negative power. *)
Definition py_pow_int (x : R) (n : Z) : result R :=
  if (n <? 0)%Z
  then if Req_dec_T x 0 then Raise ZeroDivisionError else Ok (powerRZ x n)
  else Ok (powerRZ x n).

(** An operand that must be a number: [None] in arithmetic is a
    [TypeError]. *)
Definition number (x : option R) : result R :=
  match x with
  | Some v => Ok v
  | None => Raise TypeError
  end.

(** [a ** 2]. *)
Definition fsquare : pyfloat -> pyfloat := lift1 (fun x => x * x).

(** [int(x)] on a finite float: truncation towards zero. *)
Definition trunc (x : R) : Z :=
  if Rle_dec 0 x then Zfloor x else Zceil x.

Definition msg_nan_to_int : string := "cannot convert float NaN to integer".

(** [int(a)]. *)
Definition py_int (a : pyfloat) : result Z :=
  match a with
  | Fin x => Ok (trunc x)
  | NaN => Raise (ValueError msg_nan_to_int)
  end.

(** [round(x)] with one argument: the nearest integer, a tie going to
    the even neighbour. *)
Definition round_half_even (x : R) : Z :=
  let f := Zfloor x in
  let d := x - IZR f in
  if Rlt_dec d (1 / 2) then f
  else if Rlt_dec (1 / 2) d then (f + 1)%Z
  else if Z.even f then f else (f + 1)%Z.

Definition py_round (a : pyfloat) : result Z :=
  match a with
  | Fin x => Ok (round_half_even x)
  | NaN => Raise (ValueError msg_nan_to_int)
  end.

(** [np.arange(start, stop)] on integers: [start, start+1, ..., stop-1],
    empty when [stop <= start]. *)
Definition arange (start stop : Z) : list Z :=
  map (fun i => (start + Z.of_nat i)%Z) (seq 0 (Z.to_nat (stop - start))).

(** A column of a [pandas] frame, as [read_csv] types it: numbers (a
    missing cell is [nan]) or text. *)
Inductive column : Type :=
| NumCol (cells : list pyfloat)
| StrCol (cells : list string).

(** A frame: the index column and the named data columns, in order. *)
Record DataFrame : Type := mkDataFrame {
  df_index : column;
  df_columns : list (string * column)
}.

(** [df[name]]. *)
Fixpoint lookup (name : string) (cols : list (string * column))
  : option column :=
  match cols with
  | [] => None
  | (n, c) :: cols' => if String.eqb n name then Some c else lookup name cols'
  end.

Definition df_get (name : string) (df : DataFrame) : result column :=
  match lookup name (df_columns df) with
  | Some c => Ok c
  | None => Raise (KeyError name)
  end.

(** [df[name] = col]: an existing column is replaced in place, a new one
    is appended. *)
Fixpoint assign (name : string) (col : column) (cols : list (string * column))
  : list (string * column) :=
  match cols with
  | [] => [(name, col)]
  | (n, c) :: cols' =>
      if String.eqb n name then (n, col) :: cols'
      else (n, c) :: assign name col cols'
  end.

Definition df_set (name : string) (col : column) (df : DataFrame) : DataFrame :=
  {| df_index := df_index df; df_columns := assign name col (df_columns df) |}.

(** The cells of a column as operands of arithmetic: the first text cell
    met is a [TypeError]; a column without cells has none. *)
Definition numeric (c : column) : result (list pyfloat) :=
  match c with
  | NumCol xs => Ok xs
  | StrCol [] => Ok []
  | StrCol (_ :: _) => Raise TypeError
  end.

(** [a == b] on floats: [nan] equals nothing. *)
Definition feqb (a b : pyfloat) : bool :=
  match a, b with
  | Fin x, Fin y => if Req_dec_T x y then true else false
  | _, _ => false
  end.

(** Element-wise quotient of two columns of one frame. *)
Definition col_div (a b : list pyfloat) : list pyfloat :=
  map (fun p => fdiv (fst p) (snd p)) (combine a b).

Definition msg_astype : string :=
  "Cannot convert non-finite values (NA or inf) to integer".

(** [series.astype(int)]. *)
Definition astype_int (xs : list pyfloat) : result (list pyfloat) :=
  traverse (fun a => match a with
                     | Fin x => Ok (Fin (IZR (trunc x)))
                     | NaN => Raise (ValueError msg_astype)
                     end) xs.

(** What can stand in a tuple and be kept in the attributes [energy] and
    [e0]: a built-in number (an [int] or a finite [float]), text, or a
    tuple or a list of such; the [None] of Python is the [None] of
    [option]. *)
#[warnings="-register-all"]
Inductive obj : Type :=
| ONum (x : R)
| OStr (s : string)
| OTuple (items : list (option obj))
| OList (items : list (option obj)).

Coercion ONum : R >-> obj.

(** An operand of Python arithmetic that has to be a built-in number:
    [None], text, a tuple or a list in a quotient is a [TypeError]. *)
Definition py_number (x : option obj) : result R :=
  match x with
  | Some (ONum v) => Ok v
  | Some (OStr _) | Some (OTuple _) | Some (OList _) | None => Raise TypeError
  end.

(** The values that reach the dynamically typed parameters: the right
    hand side of [obj.beta = ...], the [beta] and [atoms] arguments of
    [dataframe], and what [dataframe] returns. *)
Inductive value : Type :=
| VNone
| VInt (n : Z)
| VFloat (x : pyfloat)
| VStr (s : string)
| VTuple (items : list (option obj))
| VList (items : list R)
| VDataFrame (df : DataFrame).

End Py.

Import Py.

(** A number written where an attribute or a tuple item is expected is
    read as that number: [Some 4.2] is [Some (ONum 4.2)] there. *)
#[local] Arguments Some {A} & a.

Notation "x <- c ;; k" := (Py.bind c (fun x => k))
  (at level 61, c at next level, right associativity).

(* ================================================================= *)
(** ** The class [ChargeState] *)

(** The attributes of an instance; [Self.atomic_nr self] reads as
    [self.atomic_nr].  [atomic_nr] and [c_factor] hold [None] or a number,
    [energy] and [e0] hold whatever was last assigned to them, [_beta]
    holds [None] or a float. *)
Module Self.
Record t : Type := mk {
  atomic_nr : option R;
  energy : option obj;
  c_factor : option R;
  e0 : option obj;
  _beta : option pyfloat
}.
End Self.

Definition ChargeState : Type := Self.t.

(** [ChargeState()]: the class attributes, all [None]. *)
Definition __init__ : ChargeState := Self.mk None None None None None.

(** A method that assigns attributes: the instance it leaves behind and
    its outcome. *)
Definition method (A : Type) : Type := ChargeState -> ChargeState * result A.

Definition mret {A : Type} (a : A) : method A := fun self => (self, Ok a).

Definition mbind {A B : Type} (m : method A) (k : A -> method B) : method B :=
  fun self =>
    match m self with
    | (self', Ok a) => k a self'
    | (self', Raise e) => (self', Raise e)
    end.

(** A property getter: the instance is read, not changed. *)
Definition read {A : Type} (getter : ChargeState -> result A) : method A :=
  fun self => (self, getter self).

Notation "x <-- m ;; k" := (mbind m (fun x => k))
  (at level 61, m at next level, right associativity).

Definition msg_use_first : string := "Use charge_state_distribution() first".
Definition msg_set_beta : string :=
  "Use charge_state_distribution() first or set beta".
Definition msg_setter : string :=
  "For the beta setter, provide a tuple of (energy, e0) or a float for beta".
Definition msg_provide : string :=
  "Provide both atomic_nr and c_factor or use charge_state_distribution() first".
Definition msg_unpack_few (got : nat) : string :=
  match got with
  | O => "not enough values to unpack (expected 2, got 0)"
  | _ => "not enough values to unpack (expected 2, got 1)"
  end.
Definition msg_unpack_many : string := "too many values to unpack (expected 2)".

(** The default arguments of the public methods. *)
Definition default_energy : R := 4.2.
Definition default_c_factor : R := 1.
Definition default_e0 : R := 931.5.
Definition default_dist_onesided_len : Z := 5.

(** *** The property [beta] *)

(** Getter: [isinstance(self._beta, float)] holds exactly when a float has
    been stored. *)
Definition beta (self : ChargeState) : result pyfloat :=
  match Self._beta self with
  | Some b => Ok b
  | None => Raise (ValueError msg_set_beta)
  end.

(** [np.sqrt(1 - (1 + energy / e0) ** (-2))] on Python numbers. *)
Definition beta_of_energy (energy e0 : R) : result pyfloat :=
  q <- py_div energy e0 ;;
  p <- py_pow_int (1 + q) (-2) ;;
  Ok (np_sqrt (Fin (1 - p))).

(** The same on what the two attributes hold. *)
Definition beta_of_attributes (energy e0 : option obj) : result pyfloat :=
  x <- py_number energy ;;
  y <- py_number e0 ;;
  beta_of_energy x y.

(** Setter: [self.beta = value].  In the tuple case [self.energy] and
    [self.e0] are assigned by the unpacking, whatever the two items are,
    before the square root is taken. *)
Definition beta_setter (value : Py.value) : method unit :=
  fun self =>
    match value with
    | VFloat x =>
        (Self.mk (Self.atomic_nr self) (Self.energy self) (Self.c_factor self)
                 (Self.e0 self) (Some x),
         Ok tt)
    | VTuple items =>
        match items with
        | [energy; e0] =>
            let self :=
              Self.mk (Self.atomic_nr self) energy (Self.c_factor self)
                      e0 (Self._beta self) in
            match beta_of_attributes (Self.energy self) (Self.e0 self) with
            | Ok b =>
                (Self.mk (Self.atomic_nr self) (Self.energy self)
                         (Self.c_factor self) (Self.e0 self) (Some b),
                 Ok tt)
            | Raise e => (self, Raise e)
            end
        | [] | [_] =>
            (self, Raise (ValueError (msg_unpack_few (List.length items))))
        | _ => (self, Raise (ValueError msg_unpack_many))
        end
    | _ => (self, Raise (ValueError msg_setter))
    end.

(** *** Equation 1: [__mean_charge_state_p] *)

(** [z * (c - np.exp(-83.28 * (b / z ** 0.447)))]. *)
Definition eq1 (z : pyfloat) (c : R) (b : pyfloat) : pyfloat :=
  fmul z (fsub (Fin c) (np_exp (fmul (Fin (-83.28)) (fdiv b (fpow z 0.447))))).

(** What a call returns: a number when it works on [self.atomic_nr], a
    series when it is given one. *)
Definition p_result (atomic_nr : option column) : Type :=
  match atomic_nr with
  | None => pyfloat
  | Some _ => list pyfloat
  end.

(** The three-way test of the source, as written: the first branch is
    taken when the argument and the attribute are both [None], the second
    when both arguments are given, and everything else raises.  Operands
    are evaluated left to right, so in either formula [self.beta] is read
    before the power is taken. *)
Definition __mean_charge_state_p
    (self : ChargeState) (atomic_nr : option column) (c_factor : option R)
  : result (p_result atomic_nr) :=
  match atomic_nr as a return result (p_result a) with
  | None =>
      match Self.atomic_nr self with
      | None =>
          b <- beta self ;;
          z <- number (Self.atomic_nr self) ;;
          c <- number (Self.c_factor self) ;;
          Ok (eq1 (Fin z) c b)
      | Some _ => Raise (ValueError msg_provide)
      end
  | Some series =>
      match c_factor with
      | Some c =>
          b <- beta self ;;
          zs <- numeric series ;;
          Ok (map (fun z => eq1 z c b) zs)
      | None => Raise (ValueError msg_provide)
      end
  end.

(** *** The properties [mean_charge_state] and [std_charge_state] *)

(** The factor of equation 3:
    [1 - np.exp(-12.905 + 0.2124 * z - 0.00122 * z**2)]. *)
Definition eq3_factor (z : R) : R :=
  1 - exp (-12.905 + 0.2124 * z - 0.00122 * z ^ 2).

(** Lines 81 to 89: what becomes of the value of equation 1. *)
Definition eq3_or_eq1 (z : R) (mean_charge : pyfloat) : pyfloat :=
  if Rle_dec 54 z
  then fmul mean_charge (Fin (eq3_factor z))
  else mean_charge.

Definition mean_charge_state (self : ChargeState) : result pyfloat :=
  match Self.atomic_nr self with
  | None => Raise (ValueError msg_use_first)
  | Some z =>
      mean_charge <- __mean_charge_state_p self None None ;;
      Ok (eq3_or_eq1 z mean_charge)
  end.

(** Equation 4: [np.sqrt(m * (0.07535 + 0.19 * y - 0.2654 * y**2))] with
    [y = m / z]. *)
Definition eq4 (z : R) (mean_charge : pyfloat) : pyfloat :=
  let y := fdiv mean_charge (Fin z) in
  np_sqrt
    (fmul mean_charge
       (fsub (fadd (Fin 0.07535) (fmul (Fin 0.19) y))
             (fmul (Fin 0.2654) (fsquare y)))).

(** Equation 2: [0.5 * np.sqrt(m * (1 - (m / z) ** 1.67))]. *)
Definition eq2 (z : R) (mean_charge : pyfloat) : pyfloat :=
  fmul (Fin 0.5)
    (np_sqrt
       (fmul mean_charge
          (fsub (Fin 1) (fpow (fdiv mean_charge (Fin z)) 1.67)))).

(** Lines 100 to 108. *)
Definition eq4_or_eq2 (z : R) (mean_charge : pyfloat) : pyfloat :=
  if Rle_dec 54 z then eq4 z mean_charge else eq2 z mean_charge.

Definition std_charge_state (self : ChargeState) : result pyfloat :=
  match Self.atomic_nr self with
  | None => Raise (ValueError msg_use_first)
  | Some z =>
      mean_charge <- __mean_charge_state_p self None None ;;
      Ok (eq4_or_eq2 z mean_charge)
  end.

(** *** [charge_state_distribution] *)

(** The density of the normal law at [q]:
    [1 / (std * np.sqrt(2 * np.pi)) * np.exp(-0.5 * ((q - mean) / std) ** 2)]. *)
Definition gaussian (mean_charge std_charge : pyfloat) (q : Z) : pyfloat :=
  fmul (fdiv (Fin 1) (fmul std_charge (np_sqrt (Fin (2 * PI)))))
       (np_exp
          (fmul (Fin (-0.5))
             (fsquare (fdiv (fsub (Fin (IZR q)) mean_charge) std_charge)))).

(** The charge axis, lines 32 to 38. *)
Definition charge_axis (mean_int dist_onesided_len : Z) : list Z :=
  if (dist_onesided_len >? mean_int)%Z
  then arange 0 (2 * mean_int + 1)
  else arange (mean_int - dist_onesided_len) (mean_int + dist_onesided_len + 1).

(** Lines 31 to 45: from the mean and the standard deviation to the two
    arrays. *)
Definition distribution_arrays
    (mean_charge std_charge : pyfloat) (dist_onesided_len : Z)
  : result (list Z * list pyfloat) :=
  mean_int <- py_round mean_charge ;;
  let charge_x := charge_axis mean_int dist_onesided_len in
  let charge_y := map (gaussian mean_charge std_charge) charge_x in
  Ok (charge_x, charge_y).

Definition charge_state_distribution
    (atomic_nr : option R) (energy : option obj) (c_factor : option R)
    (e0 : option obj) (dist_onesided_len : Z)
  : method (list Z * list pyfloat) :=
  fun self =>
    let self := Self.mk atomic_nr energy c_factor e0 (Self._beta self) in
    (self,
     mean_charge <- mean_charge_state self ;;
     std_charge <- std_charge_state self ;;
     distribution_arrays mean_charge std_charge dist_onesided_len).

(** *** [dataframe] and its helper [__generate] *)

Definition lift {A : Type} (r : result A) : method A := fun self => (self, r).

(** Lines 167 to 173: which value of beta the table is made with.  An
    explicit argument goes through the setter, no argument falls back on
    the stored value, and only when there is neither is beta derived from
    [(energy, e0)]. *)
Definition resolve_beta (beta_arg : value) (e0 energy : R) : method value :=
  fun self =>
    match beta_arg, Self._beta self with
    | VNone, None =>
        (_ <-- beta_setter (VTuple [Some (ONum energy); Some (ONum e0)]) ;;
         b <-- read beta ;;
         mret (VFloat b)) self
    | VNone, Some _ =>
        (b <-- read beta ;;
         mret (VFloat b)) self
    | _, _ =>
        (_ <-- beta_setter beta_arg ;;
         mret beta_arg) self
    end.

(** [lambda x: int(x / 8) if int(x / 8) * 8 == x else int(x / 8) + 1]. *)
Definition nearest_q (x : pyfloat) : result pyfloat :=
  q <- py_int (fdiv x (Fin 8)) ;;
  if feqb (Fin (IZR q * 8)) x
  then Ok (Fin (IZR q))
  else Ok (Fin (IZR (q + 1))).

Section Table.

(** What [pd.read_csv(f, index_col=0)] yields for the packaged
    [table/elements.csv]. *)
Variable elements_csv : DataFrame.

(** The statements of [__generate], lines 156 to 178; the value is the
    local frame [df] when the last of them has run. *)
Definition generate_body (atoms beta_arg : value) (e0 energy : R)
  : method DataFrame :=
  let df := elements_csv in
  nearest <-- lift (isotope <- df_get "Commonest Isotope" df ;;
                    cells <- numeric isotope ;;
                    traverse nearest_q cells) ;;
  let df := df_set "Nearest Q (A/Q=8)" (NumCol nearest) df in
  actual <-- lift (q <- df_get "Nearest Q (A/Q=8)" df ;;
                   a <- df_get "Commonest Isotope" df ;;
                   qs <- numeric q ;;
                   cells <- numeric a ;;
                   Ok (col_div qs cells)) ;;
  let df := df_set "Actual Q/A" (NumCol actual) df in
  a_over_q <-- lift (a <- df_get "Commonest Isotope" df ;;
                     q <- df_get "Nearest Q (A/Q=8)" df ;;
                     cells <- numeric a ;;
                     qs <- numeric q ;;
                     Ok (col_div cells qs)) ;;
  let df := df_set "A/Q" (NumCol a_over_q) df in
  _ <-- resolve_beta beta_arg e0 energy ;;
  atomic <-- lift (df_get "Atomic Number" df) ;;
  mean <-- read (fun self => __mean_charge_state_p self (Some atomic) (Some 1)) ;;
  let df := df_set "Mean Charge" (NumCol mean) df in
  probable <-- lift (m <- df_get "Mean Charge" df ;;
                     cells <- numeric m ;;
                     astype_int (map (fun c => fadd c (Fin 0.5)) cells)) ;;
  let df := df_set "Monst Probable" (NumCol probable) df in
  mret df.

(** [__generate]: the body above and nothing more.  Its last line,
    [df["Standard Deviation"] =], stops at the equals sign: there is no
    expression to evaluate and nothing is assigned (as it stands the line
    does not even parse; it is read here as absent).  No [return]
    follows, so the frame stays local and the call evaluates to [None]. *)
Definition __generate (atoms beta_arg : value) (e0 energy : R)
  : method value :=
  _ <-- generate_body atoms beta_arg e0 energy ;;
  mret VNone.

(** [dataframe] passes its arguments on and returns what it gets. *)
Definition dataframe (beta_arg : value) (e0 energy : R) (atoms : value)
  : method value :=
  df <-- __generate atoms beta_arg e0 energy ;;
  mret df.

End Table.

(** [atoms="all"], the default selector. *)
Definition default_atoms : value := VStr "all".

(** The script at the end of the file, lines 182 to 189, up to the value
    [hist] it hands to [plt.plot]: a fresh instance, [tmp.dataframe()]
    with every default, then
    [tmp.charge_state_distribution(atomic_nr=82)]. *)
Definition __main__ (elements_csv : DataFrame)
  : ChargeState * result (list Z * list pyfloat) :=
  (_ <-- dataframe elements_csv VNone default_e0 default_energy default_atoms ;;
   hist <-- charge_state_distribution (Some 82) (Some default_energy)
              (Some default_c_factor) (Some default_e0)
              default_dist_onesided_len ;;
   mret hist) __init__.

(* ================================================================= *)
(** ** Vocabulary of the statements and example data *)

(** [l] lists the integers from [lo] to [hi], both included, in
    increasing order; there are none when [hi < lo]. *)
Definition integers_between (lo hi : Z) (l : list Z) : Prop :=
  Z.of_nat (List.length l) = Z.max 0 (hi - lo + 1) /\
  forall i : nat, (i < List.length l)%nat -> nth i l 0%Z = (lo + Z.of_nat i)%Z.

(** A table in the layout the code reads, with three rows of the
    reference data: hydrogen, xenon and lead, their atomic numbers and the
    mass numbers of their commonest isotopes. *)
Definition sample_csv : DataFrame :=
  mkDataFrame (StrCol ["Hydrogen"; "Xenon"; "Lead"])
    [("Atomic Number", NumCol [Fin 1; Fin 54; Fin 82]);
     ("Symbol", StrCol ["H"; "Xe"; "Pb"]);
     ("Commonest Isotope", NumCol [Fin 1; Fin 132; Fin 208])].

(** The beta that belongs to a kinetic energy and a rest energy,
    [sqrt(1 - (1 + energy / e0)^(-2))], as a real number. *)
Definition beta_formula (energy e0 : R) : R :=
  sqrt (1 - powerRZ (1 + energy / e0) (-2)).

(** The three rows of the sample table with the atomic number as the
    index instead of a column. *)
Definition indexed_csv : DataFrame :=
  mkDataFrame (NumCol [Fin 1; Fin 54; Fin 82])
    [("Symbol", StrCol ["H"; "Xe"; "Pb"]);
     ("Commonest Isotope", NumCol [Fin 1; Fin 132; Fin 208])].

(** The five columns the body of [__generate] assigns, in the spelling of
    the source. *)
Definition generated_columns : list string :=
  ["Nearest Q (A/Q=8)"; "Actual Q/A"; "A/Q"; "Mean Charge"; "Monst Probable"].

(** [df] is [csv] with the five columns added: same index, same other
    columns, and the five as numeric columns with one cell for each cell
    of the column they are computed from. *)
Definition generated_frame (csv df : DataFrame) : Prop :=
  df_index df = df_index csv /\
  (forall name, ~ In name generated_columns ->
                lookup name (df_columns df) = lookup name (df_columns csv)) /\
  exists isotopes zs q qa aq mean probable,
    (c <- df_get "Commonest Isotope" csv ;; numeric c) = Ok isotopes /\
    (c <- df_get "Atomic Number" df ;; numeric c) = Ok zs /\
    df_get "Nearest Q (A/Q=8)" df = Ok (NumCol q) /\
    df_get "Actual Q/A" df = Ok (NumCol qa) /\
    df_get "A/Q" df = Ok (NumCol aq) /\
    df_get "Mean Charge" df = Ok (NumCol mean) /\
    df_get "Monst Probable" df = Ok (NumCol probable) /\
    List.length q = List.length isotopes /\
    List.length qa = List.length isotopes /\
    List.length aq = List.length isotopes /\
    List.length mean = List.length zs /\
    List.length probable = List.length zs.

(** *** Example instances *)

(** A lead ion with every parameter in place: [atomic_nr = 82],
    [energy = 4.2], [c_factor = 1], [e0 = 931.5] and [_beta = 0.095]. *)
Definition lead_ion : ChargeState :=
  Self.mk (Some 82) (Some 4.2) (Some 1) (Some 931.5) (Some (Fin 0.095)).

(** The same with atomic number 54 (xenon) and 53 (iodine). *)
Definition xenon_ion : ChargeState :=
  Self.mk (Some 54) (Some 4.2) (Some 1) (Some 931.5) (Some (Fin 0.095)).
Definition iodine_ion : ChargeState :=
  Self.mk (Some 53) (Some 4.2) (Some 1) (Some 931.5) (Some (Fin 0.095)).

(* ================================================================= *)
(** ** The numeric primitives on concrete inputs *)

Lemma trunc_between (x : R) (n : Z) :
  0 <= IZR n -> IZR n <= x < IZR n + 1 -> trunc x = n.
Proof.
  intros Hn Hx. unfold trunc.
  destruct (Rle_dec 0 x) as [_|H]; [|lra].
  now apply Zfloor_eq.
Qed.

(** Xenon-132 needs charge 17 to come under a mass-to-charge ratio of 8,
    lead-208 exactly 26. *)
Example nearest_q_xenon : nearest_q (Fin 132) = Ok (Fin 17).
Proof.
  unfold nearest_q, fdiv, py_int.
  destruct (Req_dec_T 8 0) as [H|_]; [lra|]. cbn [bind].
  rewrite (trunc_between (132 / 8) 16) by lra.
  unfold feqb. destruct (Req_dec_T (16 * 8) 132) as [H|_]; [lra|].
  reflexivity.
Qed.

Example nearest_q_lead : nearest_q (Fin 208) = Ok (Fin 26).
Proof.
  unfold nearest_q, fdiv, py_int.
  destruct (Req_dec_T 8 0) as [H|_]; [lra|]. cbn [bind].
  rewrite (trunc_between (208 / 8) 26) by lra.
  unfold feqb. destruct (Req_dec_T (26 * 8) 208) as [_|H]; [|lra].
  reflexivity.
Qed.

(** [round] sends a tie to the even neighbour. *)
Example round_half_even_ties :
  round_half_even 2.5 = 2%Z /\ round_half_even 3.5 = 4%Z /\
  round_half_even 2.6 = 3%Z.
Proof.
  unfold round_half_even.
  rewrite (Zfloor_eq 2 2.5), (Zfloor_eq 3 3.5), (Zfloor_eq 2 2.6) by lra.
  repeat split.
  - destruct (Rlt_dec (2.5 - 2) (1 / 2)); [lra|].
    destruct (Rlt_dec (1 / 2) (2.5 - 2)); [lra|]. reflexivity.
  - destruct (Rlt_dec (3.5 - 3) (1 / 2)); [lra|].
    destruct (Rlt_dec (1 / 2) (3.5 - 3)); [lra|]. reflexivity.
  - destruct (Rlt_dec (2.6 - 2) (1 / 2)); [lra|].
    destruct (Rlt_dec (1 / 2) (2.6 - 2)); [|lra]. reflexivity.
Qed.

(* ================================================================= *)
(** ** Equation 1 and the two properties built on it *)

Section MeanCharge.

Variable self : ChargeState.

(** Called without arguments on an instance whose atomic number is set,
    [__mean_charge_state_p] passes both tests and ends in the final
    [raise]. *)
Lemma mean_charge_state_p_set (z : R) :
  Self.atomic_nr self = Some z ->
  __mean_charge_state_p self None None = Raise (ValueError msg_provide).
Proof.
  intros Hz. unfold __mean_charge_state_p. now rewrite Hz.
Qed.

(** On an instance whose atomic number is [None] the first branch is
    taken; it stops at the getter of beta or at [None ** 0.447]. *)
Lemma mean_charge_state_p_unset :
  Self.atomic_nr self = None ->
  __mean_charge_state_p self None None =
    match Self._beta self with
    | Some _ => Raise TypeError
    | None => Raise (ValueError msg_set_beta)
    end.
Proof.
  intros Hz. unfold __mean_charge_state_p, beta. rewrite Hz.
  now destruct (Self._beta self).
Qed.

(** Hence the call without arguments never returns a value. *)
Lemma mean_charge_state_p_no_value :
  exists e, __mean_charge_state_p self None None = Raise e.
Proof.
  destruct (Self.atomic_nr self) as [z|] eqn:Hz.
  - eexists. now apply mean_charge_state_p_set with z.
  - rewrite (mean_charge_state_p_unset Hz).
    destruct (Self._beta self); eexists; reflexivity.
Qed.

(** [mean_charge_state] ends in a [ValueError] on every instance: its
    own when the atomic number is missing, the one of
    [__mean_charge_state_p] when it is there. *)
Lemma mean_charge_state_outcome :
  mean_charge_state self =
    match Self.atomic_nr self with
    | None => Raise (ValueError msg_use_first)
    | Some _ => Raise (ValueError msg_provide)
    end.
Proof.
  unfold mean_charge_state.
  destruct (Self.atomic_nr self) as [z|] eqn:Hz; [|reflexivity].
  now rewrite (mean_charge_state_p_set z Hz).
Qed.

Lemma std_charge_state_outcome :
  std_charge_state self =
    match Self.atomic_nr self with
    | None => Raise (ValueError msg_use_first)
    | Some _ => Raise (ValueError msg_provide)
    end.
Proof.
  unfold std_charge_state.
  destruct (Self.atomic_nr self) as [z|] eqn:Hz; [|reflexivity].
  now rewrite (mean_charge_state_p_set z Hz).
Qed.

(** Missing parameters are reported: no atomic number, no mean and no
    standard deviation. *)
Lemma mean_charge_state_unset :
  Self.atomic_nr self = None ->
  mean_charge_state self = Raise (ValueError msg_use_first) /\
  std_charge_state self = Raise (ValueError msg_use_first).
Proof.
  intros Hz. rewrite mean_charge_state_outcome, std_charge_state_outcome.
  now rewrite Hz.
Qed.

(** The getter of beta raises exactly when no float is stored. *)
Lemma beta_raises_iff :
  beta self = Raise (ValueError msg_set_beta) <-> Self._beta self = None.
Proof.
  unfold beta. destruct (Self._beta self); split; congruence.
Qed.

Lemma beta_returns_stored (b : pyfloat) :
  beta self = Ok b <-> Self._beta self = Some b.
Proof.
  unfold beta. destruct (Self._beta self); split; congruence.
Qed.

End MeanCharge.

(** Given both arguments, [__mean_charge_state_p] does evaluate equation 1
    on every cell of the series, with the stored beta. *)
Lemma mean_charge_state_p_series (self : ChargeState) (zs : list pyfloat)
    (c : R) (b : pyfloat) :
  Self._beta self = Some b ->
  __mean_charge_state_p self (Some (NumCol zs)) (Some c) =
    Ok (map (fun z => eq1 z c b) zs).
Proof.
  intros Hb. unfold __mean_charge_state_p, beta. now rewrite Hb.
Qed.

(** Equation 1 on finite operands with a positive atomic number, in the
    notation of the paper. *)
Lemma eq1_finite (z c b : R) :
  0 < z ->
  eq1 (Fin z) c (Fin b) = Fin (z * (c - exp (-83.28 * (b / Rpower z 0.447)))).
Proof.
  intros Hz. unfold eq1, fpow.
  destruct (Rlt_dec 0 z) as [_|Hn]; [|contradiction].
  unfold fdiv.
  destruct (Req_dec_T (Rpower z 0.447) 0) as [H0|_].
  - exfalso. unfold Rpower in H0. pose proof (exp_pos (0.447 * ln z)). lra.
  - reflexivity.
Qed.

(** The guards of lines 81 and 100 put 54 on the side of equations 3 and
    4, and 53 on the side of equations 1 and 2. *)
Lemma branch_at_54 (m : pyfloat) :
  eq3_or_eq1 54 m = fmul m (Fin (eq3_factor 54)) /\
  eq4_or_eq2 54 m = eq4 54 m.
Proof.
  unfold eq3_or_eq1, eq4_or_eq2.
  destruct (Rle_dec 54 54) as [_|H]; [split; reflexivity | lra].
Qed.

Lemma branch_at_53 (m : pyfloat) :
  eq3_or_eq1 53 m = m /\ eq4_or_eq2 53 m = eq2 53 m.
Proof.
  unfold eq3_or_eq1, eq4_or_eq2.
  destruct (Rle_dec 54 53) as [H|_]; [lra | split; reflexivity].
Qed.

(** The lead ion is what [obj.beta = 0.095] followed by
    [obj.charge_state_distribution(atomic_nr=82)] leaves behind. *)
Lemma lead_ion_reachable :
  fst (charge_state_distribution (Some 82) (Some default_energy)
         (Some default_c_factor) (Some default_e0) default_dist_onesided_len
         (fst (beta_setter (VFloat (Fin 0.095)) __init__))) = lead_ion.
Proof.
  reflexivity.
Qed.

(** C1.  On the lead ion, where the atomic number (82 > 0), the factor
    [c_factor] and beta (0.095 > 0) are all set, [mean_charge_state] does
    not return the value of equation 1 with the correction of equation 3:
    the call raises the [ValueError] of [__mean_charge_state_p]. *)
Theorem mean_charge_state_lead_raises :
  Self.atomic_nr lead_ion = Some 82 /\
  Self.c_factor lead_ion = Some 1 /\
  Self._beta lead_ion = Some (Fin 0.095) /\
  mean_charge_state lead_ion = Raise (ValueError msg_provide).
Proof.
  rewrite mean_charge_state_outcome. cbn. repeat split; reflexivity.
Qed.

(** C7.  On the lead ion no required parameter is missing (the atomic
    number is 82 and the getter of beta answers 0.095), and still both
    [mean_charge_state] and [std_charge_state] raise a [ValueError]: the
    error is not confined to the instances with a missing parameter. *)
Theorem value_error_with_all_parameters_set :
  Self.atomic_nr lead_ion = Some 82 /\
  beta lead_ion = Ok (Fin 0.095) /\
  mean_charge_state lead_ion = Raise (ValueError msg_provide) /\
  std_charge_state lead_ion = Raise (ValueError msg_provide).
Proof.
  rewrite mean_charge_state_outcome, std_charge_state_outcome.
  cbn. repeat split; reflexivity.
Qed.

(** C6.  With atomic number 54 and with atomic number 53 the two
    properties end alike, in the [ValueError] raised on line 80 and on
    line 99, before the comparison with 54 is reached: neither takes a
    branch. *)
Theorem no_branch_taken_at_53_and_54 :
  mean_charge_state xenon_ion = Raise (ValueError msg_provide) /\
  std_charge_state xenon_ion = Raise (ValueError msg_provide) /\
  mean_charge_state iodine_ion = Raise (ValueError msg_provide) /\
  std_charge_state iodine_ion = Raise (ValueError msg_provide).
Proof.
  rewrite !mean_charge_state_outcome, !std_charge_state_outcome.
  cbn. repeat split; reflexivity.
Qed.

(* ================================================================= *)
(** ** [charge_state_distribution] *)

(** The call assigns its four parameters and then fails where
    [mean_charge_state] fails. *)
Lemma charge_state_distribution_outcome
    (atomic_nr : option R) (energy : option obj) (c_factor : option R)
    (e0 : option obj) (len : Z) (self : ChargeState) :
  charge_state_distribution atomic_nr energy c_factor e0 len self =
    (Self.mk atomic_nr energy c_factor e0 (Self._beta self),
     match atomic_nr with
     | None => Raise (ValueError msg_use_first)
     | Some _ => Raise (ValueError msg_provide)
     end).
Proof.
  unfold charge_state_distribution.
  rewrite mean_charge_state_outcome. cbn.
  now destruct atomic_nr.
Qed.

(** C10.  Whatever the arguments and the instance, a call of
    [charge_state_distribution] leaves [_beta] as it found it, and leaves
    its four arguments in [atomic_nr], [energy], [c_factor] and [e0]. *)
Theorem charge_state_distribution_keeps_beta :
  forall (atomic_nr : option R) (energy : option obj) (c_factor : option R)
         (e0 : option obj) (len : Z) (self : ChargeState),
    let after :=
      fst (charge_state_distribution atomic_nr energy c_factor e0 len self) in
    Self._beta after = Self._beta self /\
    Self.atomic_nr after = atomic_nr /\
    Self.energy after = energy /\
    Self.c_factor after = c_factor /\
    Self.e0 after = e0.
Proof.
  intros. subst after. cbn. repeat split; reflexivity.
Qed.

(** C2.  On a fresh instance, [charge_state_distribution(atomic_nr=82)]
    with the default energy 4.2 and e0 931.5 derives no beta: it stores
    the four parameters, leaves [_beta] at [None] and raises a
    [ValueError]; the getter of beta still raises on the instance left
    behind. *)
Theorem charge_state_distribution_fresh_instance :
  charge_state_distribution (Some 82) (Some default_energy)
      (Some default_c_factor) (Some default_e0) default_dist_onesided_len
      __init__ =
    (Self.mk (Some 82) (Some default_energy) (Some default_c_factor)
             (Some default_e0) None,
     Raise (ValueError msg_provide)) /\
  beta (Self.mk (Some 82) (Some default_energy) (Some default_c_factor)
                (Some default_e0) None) =
    Raise (ValueError msg_set_beta).
Proof.
  rewrite charge_state_distribution_outcome. split; reflexivity.
Qed.

(** *** The charge axis *)

Lemma arange_length (start stop : Z) :
  List.length (arange start stop) = Z.to_nat (stop - start).
Proof.
  unfold arange. now rewrite length_map, length_seq.
Qed.

Lemma arange_nth (start stop : Z) (i : nat) :
  (i < List.length (arange start stop))%nat ->
  nth i (arange start stop) 0%Z = (start + Z.of_nat i)%Z.
Proof.
  rewrite arange_length. intros Hi. unfold arange.
  set (f := fun k : nat => (start + Z.of_nat k)%Z).
  rewrite (nth_indep _ 0%Z (f O)) by now rewrite length_map, length_seq.
  rewrite map_nth, seq_nth by assumption. reflexivity.
Qed.

Lemma arange_integers_between (lo hi : Z) :
  integers_between lo hi (arange lo (hi + 1)).
Proof.
  split.
  - rewrite arange_length. lia.
  - apply arange_nth.
Qed.

Lemma charge_axis_shape (mean_int len : Z) :
  if (len >? mean_int)%Z
  then integers_between 0 (2 * mean_int) (charge_axis mean_int len)
  else integers_between (mean_int - len) (mean_int + len)
         (charge_axis mean_int len).
Proof.
  unfold charge_axis. destruct (len >? mean_int)%Z.
  - apply arange_integers_between.
  - apply arange_integers_between.
Qed.

(** The lengths are [2 * m_int + 1] and [2 * half_width + 1] as long as
    these are not negative. *)
Lemma charge_axis_length (mean_int len : Z) :
  Z.of_nat (List.length (charge_axis mean_int len)) =
    if (len >? mean_int)%Z
    then Z.max 0 (2 * mean_int + 1)
    else Z.max 0 (2 * len + 1).
Proof.
  unfold charge_axis.
  destruct (len >? mean_int)%Z; rewrite arange_length; lia.
Qed.

(** A mean that rounds to 3 with the default half-width 5, and one that
    rounds to 30. *)
Example charge_axis_3_5 : charge_axis 3 5 = [0; 1; 2; 3; 4; 5; 6]%Z.
Proof. reflexivity. Qed.

Example charge_axis_30_5 :
  charge_axis 30 5 = [25; 26; 27; 28; 29; 30; 31; 32; 33; 34; 35]%Z.
Proof. reflexivity. Qed.

(** C5.  With beta stored ([obj.beta = 0.095]) and every other argument
    at its default, [charge_state_distribution(atomic_nr=82)] returns no
    charge axis and no densities: the call raises the [ValueError] of
    [__mean_charge_state_p] on line 29, before the lines that round the
    mean and build the axis are reached. *)
Theorem charge_state_distribution_lead_returns_no_axis :
  charge_state_distribution (Some 82) (Some default_energy)
      (Some default_c_factor) (Some default_e0) default_dist_onesided_len
      (fst (beta_setter (VFloat (Fin 0.095)) __init__)) =
    (lead_ion, Raise (ValueError msg_provide)).
Proof.
  rewrite charge_state_distribution_outcome. reflexivity.
Qed.

(* ================================================================= *)
(** ** The factor of equation 3 *)

(** The exponent of equation 3 is negative for every real [z]: its
    discriminant is negative. *)
Lemma eq3_exponent_negative (z : R) :
  -12.905 + 0.2124 * z - 0.00122 * z ^ 2 < 0.
Proof.
  pose proof (pow2_ge_0 (z - 87.05)). nra.
Qed.

(** On the atomic numbers from 54 to 118 the exponent stays between -5
    and -3.66. *)
Lemma eq3_exponent_range (z : R) :
  54 <= z <= 118 ->
  -5 <= -12.905 + 0.2124 * z - 0.00122 * z ^ 2 <= -3.66.
Proof.
  intros [Hlo Hhi]. split.
  - nra.
  - pose proof (pow2_ge_0 (z - 87.05)). nra.
Qed.

Lemma exp_5_lt_1000 : exp 5 < 1000.
Proof.
  replace 5 with (1 + (1 + (1 + (1 + 1)))) by lra.
  rewrite !exp_plus.
  pose proof exp_le_3 as H3. pose proof (exp_pos 1) as H0.
  assert (H2 : exp 1 * exp 1 <= 9) by nra.
  assert (H4 : exp 1 * (exp 1 * exp 1) <= 27) by nra.
  assert (H5 : exp 1 * (exp 1 * (exp 1 * exp 1)) <= 81) by nra.
  nra.
Qed.

Lemma exp_366_gt_10 : 10 < exp 3.66.
Proof.
  replace 3.66 with (0.915 + (0.915 + (0.915 + 0.915))) by lra.
  rewrite !exp_plus.
  assert (H : 1.915 < exp 0.915).
  { pose proof (exp_ineq1 0.915). lra. }
  assert (H2 : 3.66 < exp 0.915 * exp 0.915) by nra.
  assert (H3 : 7 < exp 0.915 * (exp 0.915 * exp 0.915)) by nra.
  nra.
Qed.

(** With room to spare: between 54 and 118 the factor lies between 0.9
    and 0.999, far enough from 0 and 1 for the rounding of floating-point
    arithmetic not to matter. *)
Lemma eq3_factor_margin (z : R) :
  54 <= z <= 118 -> 0.9 < eq3_factor z < 0.999.
Proof.
  intros Hz. unfold eq3_factor.
  destruct (eq3_exponent_range z Hz) as [Hlo Hhi].
  set (q := -12.905 + 0.2124 * z - 0.00122 * z ^ 2) in *.
  assert (Hup : exp q <= exp (-3.66)).
  { destruct Hhi as [Hlt|Heq].
    - left. now apply exp_increasing.
    - rewrite Heq. right. reflexivity. }
  assert (Hdn : exp (-5) <= exp q).
  { destruct Hlo as [Hlt|Heq].
    - left. now apply exp_increasing.
    - rewrite <- Heq. right. reflexivity. }
  replace (exp (-3.66)) with (/ exp 3.66) in Hup
    by (rewrite <- exp_Ropp; f_equal; lra).
  replace (exp (-5)) with (/ exp 5) in Hdn
    by (rewrite <- exp_Ropp; f_equal; lra).
  pose proof exp_5_lt_1000 as H5. pose proof exp_366_gt_10 as H3.
  pose proof (exp_pos 5) as P5. pose proof (exp_pos 3.66) as P3.
  assert (Hi3 : / exp 3.66 < / 10) by (apply Rinv_lt_contravar; nra).
  assert (Hi5 : / 1000 < / exp 5) by (apply Rinv_lt_contravar; nra).
  lra.
Qed.

(** C9.  For every atomic number [z] from 54 to 118 the factor
    [1 - exp(-12.905 + 0.2124 z - 0.00122 z^2)] of equation 3 is strictly
    between 0 and 1. *)
Theorem eq3_factor_between_0_and_1 :
  forall z : Z, (54 <= z <= 118)%Z -> 0 < eq3_factor (IZR z) < 1.
Proof.
  intros z _. unfold eq3_factor.
  pose proof (eq3_exponent_negative (IZR z)) as Hneg.
  pose proof (exp_pos (-12.905 + 0.2124 * IZR z - 0.00122 * IZR z ^ 2)) as Hpos.
  apply exp_increasing in Hneg. rewrite exp_0 in Hneg.
  lra.
Qed.

(** The bounds at the lower end of the range, atomic number 54. *)
Lemma eq3_factor_between_0_and_1_at_54 :
  (54 <= 54 <= 118)%Z /\ 0 < eq3_factor 54 < 1.
Proof.
  split; [lia|]. apply (eq3_factor_between_0_and_1 54). lia.
Defined.

(* ================================================================= *)
(** ** The setter of beta *)

Lemma beta_of_energy_defined (energy e0 : R) :
  e0 <> 0 -> 1 + energy / e0 <> 0 ->
  beta_of_energy energy e0 =
    Ok (np_sqrt (Fin (1 - powerRZ (1 + energy / e0) (-2)))).
Proof.
  intros H0 H1. unfold beta_of_energy, py_div, py_pow_int.
  destruct (Req_dec_T e0 0) as [E|_]; [contradiction|].
  cbn [bind Z.ltb Z.compare].
  destruct (Req_dec_T (1 + energy / e0) 0) as [E|_]; [contradiction|].
  reflexivity.
Qed.


(** For a positive rest energy and a kinetic energy that is not negative
    the radicand lies in [0, 1) and beta is the real number of the
    formula. *)
Lemma beta_of_energy_physical (energy e0 : R) :
  0 < e0 -> 0 <= energy ->
  beta_of_energy energy e0 = Ok (Fin (beta_formula energy e0)).
Proof.
  intros He0 Hen.
  assert (Hq : 0 <= energy / e0) by (apply Rle_mult_inv_pos; assumption).
  rewrite beta_of_energy_defined by lra.
  unfold np_sqrt, beta_formula.
  destruct (Rlt_dec (1 - powerRZ (1 + energy / e0) (-2)) 0) as [Hneg|_];
    [exfalso | reflexivity].
  cbn [powerRZ] in Hneg. change (Pos.to_nat 2) with 2%nat in Hneg.
  cbn [pow] in Hneg.
  assert (Hx1 : 1 <= 1 + energy / e0) by lra.
  set (x := 1 + energy / e0) in *.
  assert (Hx : 1 <= x * (x * 1)) by nra.
  assert (Hi : / (x * (x * 1)) <= / 1) by (apply Rinv_le_contravar; lra).
  rewrite Rinv_1 in Hi. lra.
Qed.




(* ================================================================= *)
(** ** [dataframe] *)

Lemma lookup_assign_same (name : string) (col : column)
    (cols : list (string * column)) :
  lookup name (assign name col cols) = Some col.
Proof.
  induction cols as [|[n c] cols IH]; cbn.
  - now rewrite String.eqb_refl.
  - destruct (String.eqb n name) eqn:E; cbn; rewrite E; [reflexivity | exact IH].
Qed.

Lemma lookup_assign_other (name other : string) (col : column)
    (cols : list (string * column)) :
  String.eqb other name = false ->
  lookup name (assign other col cols) = lookup name cols.
Proof.
  intros Hne. induction cols as [|[n c] cols IH]; cbn.
  - now rewrite Hne.
  - destruct (String.eqb n other) eqn:E; cbn.
    + apply String.eqb_eq in E. subst n. now rewrite Hne.
    + destruct (String.eqb n name); [reflexivity | exact IH].
Qed.

Lemma df_get_set_same (name : string) (col : column) (df : DataFrame) :
  df_get name (df_set name col df) = Ok col.
Proof.
  unfold df_get, df_set. cbn. now rewrite lookup_assign_same.
Qed.

Lemma df_get_set_other (name other : string) (col : column) (df : DataFrame) :
  String.eqb other name = false ->
  df_get name (df_set other col df) = df_get name df.
Proof.
  intros H. unfold df_get, df_set. cbn. now rewrite lookup_assign_other.
Qed.

(** Reading a column of a frame after assignments to columns with known
    names. *)
Ltac frame_lookup :=
  repeat match goal with
  | |- context [df_get ?n (df_set ?n ?c ?d)] =>
      rewrite (df_get_set_same n c d)
  | |- context [df_get ?n (df_set ?m ?c ?d)] =>
      rewrite (df_get_set_other n m c d eq_refl)
  end.

Lemma nearest_q_finite (v : R) : exists w, nearest_q (Fin v) = Ok (Fin w).
Proof.
  unfold nearest_q, fdiv, py_int.
  destruct (Req_dec_T 8 0) as [H|_]; [lra|]. cbn [bind].
  destruct (feqb _ _); eexists; reflexivity.
Qed.

Lemma traverse_nearest_q (vs : list R) :
  exists ws, traverse nearest_q (map Fin vs) = Ok (map Fin ws) /\
             List.length ws = List.length vs.
Proof.
  induction vs as [|v vs [ws [IH Hlen]]]; cbn.
  - exists []. split; reflexivity.
  - destruct (nearest_q_finite v) as [w Hw]. rewrite Hw, IH. cbn.
    exists (w :: ws). split; [reflexivity | cbn; now rewrite Hlen].
Qed.

Lemma astype_int_finite (vs : list R) :
  astype_int (map Fin vs) = Ok (map (fun v => Fin (IZR (trunc v))) vs).
Proof.
  unfold astype_int. induction vs as [|v vs IH]; cbn; [reflexivity|].
  now rewrite IH.
Qed.

Lemma eq1_cells_finite (zs : list R) (c b : R) :
  Forall (fun z => 0 < z) zs ->
  map (fun z => eq1 z c (Fin b)) (map Fin zs) =
    map Fin (map (fun z => z * (c - exp (-83.28 * (b / Rpower z 0.447)))) zs).
Proof.
  induction 1 as [|z zs Hz _ IH]; cbn [map]; [reflexivity|].
  now rewrite eq1_finite, IH.
Qed.

(** Without an explicit beta and with none stored, beta is derived from
    the energy arguments and kept on the instance. *)
Lemma resolve_beta_default (energy e0 : R) (self : ChargeState) :
  Self._beta self = None -> 0 < e0 -> 0 <= energy ->
  resolve_beta VNone e0 energy self =
    (Self.mk (Self.atomic_nr self) (Some energy) (Self.c_factor self)
             (Some e0) (Some (Fin (beta_formula energy e0))),
     Ok (VFloat (Fin (beta_formula energy e0)))).
Proof.
  intros Hb He0 Hen. unfold resolve_beta. rewrite Hb.
  unfold mbind, beta_setter, beta_of_attributes.
  cbn [Self.energy Self.e0 py_number bind].
  rewrite beta_of_energy_physical by assumption.
  reflexivity.
Qed.

(** On a table that has the two columns the code reads, with finite cells
    and positive atomic numbers, the body of [__generate] runs to its end:
    the frame it has built by then holds one mean charge for every row of
    the table, whatever [atoms] asks for. *)
Lemma generate_body_completes (csv : DataFrame) (isotopes zs : list R)
    (atoms : value) (energy e0 : R) (self : ChargeState) :
  df_get "Commonest Isotope" csv = Ok (NumCol (map Fin isotopes)) ->
  df_get "Atomic Number" csv = Ok (NumCol (map Fin zs)) ->
  Forall (fun z => 0 < z) zs ->
  Self._beta self = None -> 0 < e0 -> 0 <= energy ->
  exists df mean,
    generate_body csv atoms VNone e0 energy self =
      (Self.mk (Self.atomic_nr self) (Some energy) (Self.c_factor self)
               (Some e0) (Some (Fin (beta_formula energy e0))),
       Ok df) /\
    df_get "Mean Charge" df = Ok (NumCol (map Fin mean)) /\
    List.length mean = List.length zs.
Proof.
  intros Hiso Hat Hpos Hb He0 Hen.
  unfold generate_body, mbind, lift, read, mret.
  rewrite Hiso. cbn [bind numeric].
  destruct (traverse_nearest_q isotopes) as [ws [Hws _]]. rewrite Hws.
  frame_lookup. rewrite Hiso. cbn [bind numeric].
  frame_lookup. rewrite Hiso. cbn [bind numeric].
  rewrite (resolve_beta_default energy e0 self Hb He0 Hen).
  frame_lookup. rewrite Hat.
  erewrite mean_charge_state_p_series by reflexivity.
  rewrite (eq1_cells_finite _ _ _ Hpos).
  frame_lookup. cbn [bind numeric].
  rewrite (map_map Fin). unfold fadd. cbn [lift2].
  rewrite <- (map_map (fun m => m + 0.5) Fin).
  rewrite astype_int_finite.
  eexists. eexists. split; [reflexivity|]. split.
  - frame_lookup. reflexivity.
  - apply length_map.
Qed.

(** The selector [atoms] is never read. *)
Lemma dataframe_ignores_atoms (csv : DataFrame) (beta_arg : value)
    (e0 energy : R) (atoms atoms' : value) (self : ChargeState) :
  dataframe csv beta_arg e0 energy atoms self =
  dataframe csv beta_arg e0 energy atoms' self.
Proof.
  reflexivity.
Qed.

(** [dataframe] returns [None] when the body of [__generate] completes,
    and raises what the body raises. *)
Lemma dataframe_outcome (csv : DataFrame) (beta_arg : value) (e0 energy : R)
    (atoms : value) (self : ChargeState) :
  dataframe csv beta_arg e0 energy atoms self =
    (fst (generate_body csv atoms beta_arg e0 energy self),
     _ <- snd (generate_body csv atoms beta_arg e0 energy self) ;; Ok VNone).
Proof.
  unfold dataframe, __generate, mbind, mret.
  now destruct (generate_body csv atoms beta_arg e0 energy self) as [s [df|e]].
Qed.

(** C4.  For every table, every instance and all arguments, what
    [dataframe] hands back is not a frame: it is [None] when the body of
    [__generate] has built its frame without an exception, and the
    exception otherwise. *)
Theorem dataframe_returns_no_table :
  forall (csv : DataFrame) (beta_arg : value) (e0 energy : R) (atoms : value)
         (self : ChargeState),
    snd (dataframe csv beta_arg e0 energy atoms self) =
      (_ <- snd (generate_body csv atoms beta_arg e0 energy self) ;; Ok VNone) /\
    match snd (dataframe csv beta_arg e0 energy atoms self) with
    | Ok (VDataFrame _) => False
    | Ok _ | Raise _ => True
    end.
Proof.
  intros. rewrite dataframe_outcome. cbn [snd]. split; [reflexivity|].
  now destruct (snd (generate_body csv atoms beta_arg e0 energy self)).
Qed.

(** C3.  [ChargeState().dataframe(atoms=[54, 82])] on the three-row table:
    the body of [__generate] derives beta, computes a mean charge for each
    of the three rows, selects none of them, and the call returns [None]
    instead of the rows of xenon and lead. *)
Theorem dataframe_atoms_54_82_returns_none :
  let after :=
    Self.mk None (Some default_energy) None (Some default_e0)
            (Some (Fin (beta_formula default_energy default_e0))) in
  (exists df mean,
      generate_body sample_csv (VList [54; 82]) VNone default_e0
        default_energy __init__ = (after, Ok df) /\
      df_get "Mean Charge" df = Ok (NumCol (map Fin mean)) /\
      List.length mean = 3%nat) /\
  dataframe sample_csv VNone default_e0 default_energy (VList [54; 82])
    __init__ = (after, Ok VNone).
Proof.
  intros after.
  destruct (generate_body_completes sample_csv [1; 132; 208] [1; 54; 82]
              (VList [54; 82]) default_energy default_e0 __init__)
    as [df [mean [Hbody [Hmean Hlen]]]];
    try reflexivity; try (unfold default_e0, default_energy; lra).
  { repeat constructor; lra. }
  split.
  - exists df, mean. repeat split; assumption.
  - rewrite dataframe_outcome, Hbody. reflexivity.
Qed.

(* ================================================================= *)
(** ** What the properties and the distribution never do *)

(** X24.  Neither [mean_charge_state] nor [std_charge_state] ever returns
    a value: on every instance both raise the same [ValueError], the one
    of line 78 and line 97 without an atomic number and the one of
    [__mean_charge_state_p] with one. *)
Theorem charge_state_properties_never_return :
  forall self : ChargeState,
    exists msg,
      mean_charge_state self = Raise (ValueError msg) /\
      std_charge_state self = Raise (ValueError msg) /\
      (msg = msg_use_first \/ msg = msg_provide).
Proof.
  intros self. rewrite mean_charge_state_outcome, std_charge_state_outcome.
  destruct (Self.atomic_nr self); eexists; repeat split; auto.
Qed.

(** X25.  [charge_state_distribution] never returns its two arrays: for
    every instance and all arguments it raises a [ValueError]. *)
Theorem charge_state_distribution_never_returns :
  forall (atomic_nr : option R) (energy : option obj) (c_factor : option R)
         (e0 : option obj) (len : Z) (self : ChargeState),
    exists msg,
      snd (charge_state_distribution atomic_nr energy c_factor e0 len self) =
        Raise (ValueError msg).
Proof.
  intros. rewrite charge_state_distribution_outcome. cbn [snd].
  destruct atomic_nr; eexists; reflexivity.
Qed.

(* ================================================================= *)
(** ** Further properties of the setter and the getter of beta *)





(* ================================================================= *)
(** ** Further properties of [dataframe] *)

(** Case analysis along the statements of [generate_body]. *)
Ltac body_cases :=
  repeat (match goal with
          | |- context [match ?x with Ok _ => _ | Raise _ => _ end] =>
              destruct x eqn:?
          | |- context [let (_, _) := ?x in _] => destruct x eqn:?
          end; cbn [fst snd]).

Lemma resolve_beta_stored (e0 energy : R) (self : ChargeState) (b : pyfloat) :
  Self._beta self = Some b ->
  resolve_beta VNone e0 energy self = (self, Ok (VFloat b)).
Proof.
  intros Hb. unfold resolve_beta, mbind, read, mret, beta. now rewrite Hb.
Qed.


(** Up to the resolution of beta the body does not touch the instance,
    and after it neither. *)
Lemma generate_body_instance (csv : DataFrame) (atoms beta_arg : value)
    (e0 energy : R) (self : ChargeState) :
  fst (generate_body csv atoms beta_arg e0 energy self) = self \/
  fst (generate_body csv atoms beta_arg e0 energy self) =
    fst (resolve_beta beta_arg e0 energy self).
Proof.
  unfold generate_body, mbind, lift, read, mret.
  body_cases; auto.
Qed.

Lemma resolve_beta_instance (beta_arg : value) (e0 energy : R)
    (self : ChargeState) :
  Self.atomic_nr (fst (resolve_beta beta_arg e0 energy self)) =
    Self.atomic_nr self /\
  Self.c_factor (fst (resolve_beta beta_arg e0 energy self)) =
    Self.c_factor self.
Proof.
  unfold resolve_beta, mbind, read, mret, beta_setter.
  destruct beta_arg as [| n | x | s | items | items | df];
    try (split; reflexivity).
  - destruct (Self._beta self) as [b|] eqn:Hb.
    + unfold beta. rewrite Hb. split; reflexivity.
    + destruct (beta_of_attributes _ _); split; reflexivity.
  - destruct items as [|en [|e [|extra items]]]; try (split; reflexivity).
    destruct (beta_of_attributes _ _); split; reflexivity.
Qed.


(** X6.  A beta that is stored wins over the energy arguments: on an
    instance with a stored beta, [dataframe] without an explicit beta
    gives the same outcome whatever [e0], [energy] and [atoms] it is
    called with, and leaves the instance exactly as it was. *)
Theorem dataframe_stored_beta_wins :
  forall (csv : DataFrame) (self : ChargeState) (b : pyfloat)
         (e0 energy e0' energy' : R) (atoms atoms' : value),
    Self._beta self = Some b ->
    dataframe csv VNone e0 energy atoms self =
      dataframe csv VNone e0' energy' atoms' self /\
    fst (dataframe csv VNone e0 energy atoms self) = self.
Proof.
  intros csv self b e0 energy e0' energy' atoms atoms' Hb.
  rewrite !dataframe_outcome. unfold generate_body, mbind, lift, read, mret.
  rewrite !(resolve_beta_stored _ _ self b Hb).
  split; [reflexivity|].
  body_cases; reflexivity.
Qed.

Lemma dataframe_stored_beta_wins_lead :
  Self._beta lead_ion = Some (Fin 0.095) /\
  dataframe sample_csv VNone default_e0 default_energy default_atoms lead_ion =
    dataframe sample_csv VNone 1 100 (VList [54; 82]) lead_ion /\
  fst (dataframe sample_csv VNone default_e0 default_energy default_atoms
         lead_ion) = lead_ion.
Proof.
  split; [reflexivity|].
  exact (dataframe_stored_beta_wins sample_csv lead_ion (Fin 0.095)
           default_e0 default_energy 1 100 default_atoms (VList [54; 82])
           eq_refl).
Defined.

(** X7.  [dataframe] is declared with [beta: int], but an integer beta
    never gets through: for every table the call raises, and the instance
    is left untouched.  The same holds for a string, a list or a frame. *)
Theorem dataframe_rejects_integer_beta :
  forall (csv : DataFrame) (beta_arg : value) (e0 energy : R) (atoms : value)
         (self : ChargeState),
    match beta_arg with
    | VNone | VFloat _ | VTuple _ => True
    | VInt _ | VStr _ | VList _ | VDataFrame _ =>
        exists e, dataframe csv beta_arg e0 energy atoms self = (self, Raise e)
    end.
Proof.
  intros csv beta_arg e0 energy atoms self.
  destruct beta_arg as [| n | x | s | items | items | df]; try exact I;
    rewrite dataframe_outcome;
    unfold generate_body, mbind, lift, read, mret;
    unfold resolve_beta, mbind, beta_setter;
    body_cases; eexists; reflexivity.
Qed.

(** X8.  [dataframe] never assigns [atomic_nr] or [c_factor]: whatever the
    table, the arguments and the outcome, both are what they were. *)
Theorem dataframe_keeps_atomic_nr :
  forall (csv : DataFrame) (beta_arg : value) (e0 energy : R) (atoms : value)
         (self : ChargeState),
    let after := fst (dataframe csv beta_arg e0 energy atoms self) in
    Self.atomic_nr after = Self.atomic_nr self /\
    Self.c_factor after = Self.c_factor self.
Proof.
  intros csv beta_arg e0 energy atoms self after. subst after.
  rewrite dataframe_outcome. cbn [fst].
  destruct (generate_body_instance csv atoms beta_arg e0 energy self) as [H|H];
    rewrite H; [split; reflexivity | apply resolve_beta_instance].
Qed.

(** X9.  A table without the column "Commonest Isotope" is refused with a
    [KeyError] before anything is assigned: the instance is untouched,
    whatever beta was asked for. *)
Theorem dataframe_missing_isotope_column :
  forall (csv : DataFrame) (beta_arg : value) (e0 energy : R) (atoms : value)
         (self : ChargeState),
    lookup "Commonest Isotope" (df_columns csv) = None ->
    dataframe csv beta_arg e0 energy atoms self =
      (self, Raise (KeyError "Commonest Isotope")).
Proof.
  intros csv beta_arg e0 energy atoms self Hno.
  rewrite dataframe_outcome. unfold generate_body, mbind, lift, df_get.
  rewrite Hno. reflexivity.
Qed.

Lemma dataframe_missing_isotope_column_empty :
  lookup "Commonest Isotope" (df_columns (mkDataFrame (NumCol []) [])) = None /\
  dataframe (mkDataFrame (NumCol []) []) VNone default_e0 default_energy
    default_atoms __init__ =
    (__init__, Raise (KeyError "Commonest Isotope")).
Proof.
  split; [reflexivity|].
  exact (dataframe_missing_isotope_column (mkDataFrame (NumCol []) []) VNone
           default_e0 default_energy default_atoms __init__ eq_refl).
Defined.

(** X10.  A table with a sound isotope column but without the column
    "Atomic Number" (as when the atomic number is the index) is refused
    with a [KeyError] only after beta has been resolved: on an instance
    without beta, the beta derived from the energy arguments and the two
    energies stay on the instance although the call failed. *)
Theorem dataframe_missing_atomic_number_column :
  forall (csv : DataFrame) (isotopes : list R) (e0 energy : R) (atoms : value)
         (self : ChargeState),
    df_get "Commonest Isotope" csv = Ok (NumCol (map Fin isotopes)) ->
    lookup "Atomic Number" (df_columns csv) = None ->
    Self._beta self = None -> 0 < e0 -> 0 <= energy ->
    dataframe csv VNone e0 energy atoms self =
      (Self.mk (Self.atomic_nr self) (Some energy) (Self.c_factor self)
               (Some e0) (Some (Fin (beta_formula energy e0))),
       Raise (KeyError "Atomic Number")).
Proof.
  intros csv isotopes e0 energy atoms self Hiso Hno Hb He0 Hen.
  rewrite dataframe_outcome. unfold generate_body, mbind, lift, read, mret.
  rewrite Hiso. cbn [bind numeric].
  destruct (traverse_nearest_q isotopes) as [ws [Hws _]]. rewrite Hws.
  frame_lookup. rewrite Hiso. cbn [bind numeric].
  frame_lookup. rewrite Hiso. cbn [bind numeric].
  rewrite (resolve_beta_default energy e0 self Hb He0 Hen).
  frame_lookup. unfold df_get. rewrite Hno. reflexivity.
Qed.

Lemma dataframe_missing_atomic_number_column_indexed :
  df_get "Commonest Isotope" indexed_csv =
    Ok (NumCol (map Fin [1; 132; 208])) /\
  lookup "Atomic Number" (df_columns indexed_csv) = None /\
  Self._beta __init__ = None /\ 0 < default_e0 /\ 0 <= default_energy /\
  dataframe indexed_csv VNone default_e0 default_energy default_atoms __init__ =
    (Self.mk None (Some default_energy) None (Some default_e0)
             (Some (Fin (beta_formula default_energy default_e0))),
     Raise (KeyError "Atomic Number")).
Proof.
  assert (H0 : 0 < default_e0) by (unfold default_e0; lra).
  assert (H1 : 0 <= default_energy) by (unfold default_energy; lra).
  repeat (split; [first [reflexivity | assumption]|]).
  exact (dataframe_missing_atomic_number_column indexed_csv [1; 132; 208]
           default_e0 default_energy default_atoms __init__
           eq_refl eq_refl eq_refl H0 H1).
Defined.

(* ================================================================= *)
(** ** The frame that [__generate] builds *)

Lemma traverse_length {A B : Type} (f : A -> result B) (xs : list A)
    (ys : list B) :
  traverse f xs = Ok ys -> List.length ys = List.length xs.
Proof.
  revert ys. induction xs as [|x xs IH]; cbn; intros ys H.
  - now inversion H.
  - destruct (f x) as [y|e]; cbn in H; [|discriminate].
    destruct (traverse f xs) as [ys'|e]; cbn in H; [|discriminate].
    inversion H. cbn. now rewrite (IH ys').
Qed.

Lemma col_div_length (a b : list pyfloat) :
  List.length a = List.length b ->
  List.length (col_div a b) = List.length a.
Proof.
  intros H. unfold col_div. rewrite length_map, length_combine, <- H.
  apply Nat.min_id.
Qed.

Lemma lookup_assign_outside (name other : string) (col : column)
    (cols : list (string * column)) :
  other <> name -> lookup name (assign other col cols) = lookup name cols.
Proof.
  intros Hne. apply lookup_assign_other.
  destruct (String.eqb other name) eqn:E; [|reflexivity].
  apply String.eqb_eq in E. contradiction.
Qed.

(** X11.  Whenever the body of [__generate] runs to its end, the frame it
    has built has the index of the table, every column of the table whose
    name is not one of the five it assigns, and those five as numeric
    columns: "Nearest Q (A/Q=8)", "Actual Q/A" and "A/Q" with one cell for
    each cell of "Commonest Isotope", "Mean Charge" and "Monst Probable"
    with one cell for each cell of "Atomic Number". *)
Theorem generate_body_frame :
  forall (csv : DataFrame) (atoms beta_arg : value) (e0 energy : R)
         (self : ChargeState) (df : DataFrame),
    snd (generate_body csv atoms beta_arg e0 energy self) = Ok df ->
    generated_frame csv df.
Proof.
  intros csv atoms beta_arg e0 energy self df.
  unfold generated_frame, generate_body, mbind, lift, read, mret.
  destruct (df_get "Commonest Isotope" csv) as [iso|e] eqn:Hiso;
    cbn [bind]; [|discriminate].
  destruct (numeric iso) as [cells|e] eqn:Hcells; cbn [bind]; [|discriminate].
  destruct (traverse nearest_q cells) as [q|e] eqn:Hq; [|discriminate].
  frame_lookup. rewrite Hiso. cbn [bind numeric]. rewrite Hcells. cbn [bind].
  frame_lookup. rewrite Hiso. cbn [bind numeric]. rewrite Hcells. cbn [bind].
  destruct (resolve_beta beta_arg e0 energy self) as [s [v|e]]; [|discriminate].
  frame_lookup.
  destruct (df_get "Atomic Number" csv) as [atomic|e] eqn:Hat; [|discriminate].
  unfold __mean_charge_state_p.
  destruct (beta s) as [b|e]; cbn [bind]; [|discriminate].
  destruct (numeric atomic) as [zs|e] eqn:Hzs; cbn [bind]; [|discriminate].
  frame_lookup. cbn [bind numeric].
  destruct (astype_int _) as [probable|e] eqn:Hp; [|discriminate].
  cbn [snd]. intros H. inversion H; subst df; clear H.
  pose proof (traverse_length _ _ _ Hq) as Lq.
  pose proof (traverse_length _ _ _ Hp) as Lp.
  rewrite !length_map in Lp.
  split; [reflexivity|]. split.
  - intros name Hname. cbn [df_set df_columns].
    rewrite !lookup_assign_outside; [reflexivity| | | | |];
      intros E; apply Hname; subst name; cbn; tauto.
  - exists cells, zs, q, (col_div q cells), (col_div cells q),
      (map (fun z => eq1 z 1 b) zs), probable.
    frame_lookup. rewrite Hat. cbn [bind]. rewrite Hzs.
    repeat split; try reflexivity; try assumption.
    + rewrite col_div_length; assumption.
    + rewrite col_div_length; [now symmetry | now symmetry].
    + now rewrite length_map.
Qed.

(** The frame built from the three-row table on a fresh instance. *)
Lemma generate_body_frame_sample :
  exists df,
    snd (generate_body sample_csv default_atoms VNone default_e0
           default_energy __init__) = Ok df /\
    generated_frame sample_csv df.
Proof.
  destruct (generate_body_completes sample_csv [1; 132; 208] [1; 54; 82]
              default_atoms default_energy default_e0 __init__)
    as [df [mean [Hbody _]]];
    try reflexivity; try (unfold default_e0, default_energy; lra).
  { repeat constructor; lra. }
  exists df.
  assert (H : snd (generate_body sample_csv default_atoms VNone default_e0
                     default_energy __init__) = Ok df)
    by (rewrite Hbody; reflexivity).
  split; [exact H|].
  exact (generate_body_frame sample_csv default_atoms VNone default_e0
           default_energy __init__ df H).
Defined.

(* ================================================================= *)
(** ** The columns of the table, cell by cell *)

Lemma Rpower_pos (x y : R) : 0 < Rpower x y.
Proof.
  unfold Rpower. apply exp_pos.
Qed.

(** Equation 1 on one cell, with the bounds of its value. *)
Lemma eq1_bounds (z b : R) :
  0 < z -> 0 < b ->
  exists m, eq1 (Fin z) 1 (Fin b) = Fin m /\ 0 <= m <= z.
Proof.
  intros Hz Hb. rewrite eq1_finite by assumption.
  eexists. split; [reflexivity|].
  pose proof (Rpower_pos z 0.447) as Hp.
  assert (Hq : 0 < b / Rpower z 0.447) by (apply Rdiv_lt_0_compat; assumption).
  assert (Hneg : -83.28 * (b / Rpower z 0.447) < 0) by nra.
  pose proof (exp_pos (-83.28 * (b / Rpower z 0.447))) as He.
  apply exp_increasing in Hneg. rewrite exp_0 in Hneg.
  split; nra.
Qed.

(** X12.  With a positive beta stored, the mean charges that
    [__mean_charge_state_p] computes for a series of positive atomic
    numbers and the factor 1 of the table are all finite, not negative,
    and not above the atomic number of their row. *)
Theorem mean_charge_between_0_and_atomic_number :
  forall (self : ChargeState) (b : R) (zs : list R),
    Self._beta self = Some (Fin b) -> 0 < b ->
    Forall (fun z => 0 < z) zs ->
    exists means : list R,
      __mean_charge_state_p self (Some (NumCol (map Fin zs))) (Some 1) =
        Ok (map Fin means) /\
      Forall2 (fun z m => 0 <= m <= z) zs means.
Proof.
  intros self b zs Hbeta Hb Hzs.
  rewrite (mean_charge_state_p_series self _ 1 (Fin b) Hbeta).
  induction Hzs as [|z zs Hz _ [means [IH HF]]].
  - exists []. split; [reflexivity | constructor].
  - destruct (eq1_bounds z b Hz Hb) as [m [Hm Hbd]].
    exists (m :: means). split.
    + cbn [map]. rewrite Hm. cbn [map] in IH. inversion IH as [IH'].
      now rewrite IH'.
    + constructor; [lra | exact HF].
Qed.

Lemma mean_charge_between_0_and_atomic_number_lead :
  Self._beta lead_ion = Some (Fin 0.095) /\ 0 < 0.095 /\
  Forall (fun z => 0 < z) [1; 54; 82] /\
  exists means : list R,
    __mean_charge_state_p lead_ion (Some (NumCol (map Fin [1; 54; 82])))
      (Some 1) = Ok (map Fin means) /\
    Forall2 (fun z m => 0 <= m <= z) [1; 54; 82] means.
Proof.
  assert (Hb : 0 < 0.095) by lra.
  assert (Hz : Forall (fun z => 0 < z) [1; 54; 82])
    by (repeat constructor; lra).
  split; [reflexivity|]. split; [exact Hb|]. split; [exact Hz|].
  exact (mean_charge_between_0_and_atomic_number lead_ion 0.095 [1; 54; 82]
           eq_refl Hb Hz).
Defined.



(* ================================================================= *)
(** ** The arrays of [charge_state_distribution] *)

Lemma arange_In (start stop q : Z) :
  In q (arange start stop) <-> (start <= q < stop)%Z.
Proof.
  unfold arange. rewrite in_map_iff. split.
  - intros [i [Hq Hi]]. apply in_seq in Hi. lia.
  - intros Hq. exists (Z.to_nat (q - start)). split; [lia|].
    apply in_seq. lia.
Qed.

(** X16.  With a half-width that is not negative, no charge state on the
    axis is negative, whatever the rounded mean, and the rounded mean
    itself is on the axis exactly when it is not negative. *)
Theorem charge_axis_never_negative :
  forall mean_int half_width : Z,
    (0 <= half_width)%Z ->
    Forall (fun q => (0 <= q)%Z) (charge_axis mean_int half_width) /\
    (In mean_int (charge_axis mean_int half_width) <-> (0 <= mean_int)%Z).
Proof.
  intros m hw Hhw. unfold charge_axis.
  destruct (hw >? m)%Z eqn:E.
  - apply Z.gtb_lt in E. split.
    + apply Forall_forall. intros q Hq. apply arange_In in Hq. lia.
    + rewrite arange_In. lia.
  - rewrite Z.gtb_ltb in E. apply Z.ltb_ge in E. split.
    + apply Forall_forall. intros q Hq. apply arange_In in Hq. lia.
    + rewrite arange_In. lia.
Qed.

Lemma charge_axis_never_negative_default :
  (0 <= default_dist_onesided_len)%Z /\
  Forall (fun q => (0 <= q)%Z) (charge_axis 3 default_dist_onesided_len) /\
  (In 3%Z (charge_axis 3 default_dist_onesided_len) <-> (0 <= 3)%Z).
Proof.
  assert (H : (0 <= default_dist_onesided_len)%Z)
    by (unfold default_dist_onesided_len; lia).
  split; [exact H|]. exact (charge_axis_never_negative 3 _ H).
Defined.

(** X18.  The script at the end of the file never gets as far as plotting:
    whatever the packaged table holds, either [tmp.dataframe()] raises or
    [tmp.charge_state_distribution(atomic_nr=82)] does. *)
Theorem main_script_raises :
  forall csv : DataFrame, exists e, snd (__main__ csv) = Raise e.
Proof.
  intros csv. unfold __main__, mbind, mret.
  destruct (dataframe csv VNone default_e0 default_energy default_atoms
              __init__) as [s [v|e]].
  - rewrite charge_state_distribution_outcome. eexists. reflexivity.
  - eexists. reflexivity.
Qed.

(* ================================================================= *)
(** ** The formulas for the standard deviation and the correction *)

Lemma Rpower_1_l (y : R) : Rpower 1 y = 1.
Proof.
  unfold Rpower. now rewrite ln_1, Rmult_0_r, exp_0.
Qed.

(** X19.  Equation 2 (lines 106 to 108) on a mean charge [m >= 0] and a
    positive atomic number [z]: the result is a finite number that is not
    negative as long as [m <= z], and [nan] as soon as the mean exceeds
    the atomic number. *)
Theorem eq2_domain :
  forall z m : R,
    0 < z -> 0 <= m ->
    (m <= z /\ exists s, eq2 z (Fin m) = Fin s /\ 0 <= s) \/
    (z < m /\ eq2 z (Fin m) = NaN).
Proof.
  intros z m Hz Hm. unfold eq2, fdiv.
  destruct (Req_dec_T z 0) as [H|_]; [lra|].
  assert (Hi : 0 < / z) by now apply Rinv_0_lt_compat.
  unfold fpow. destruct (Rlt_dec 0 (m / z)) as [Hpos|Hnpos].
  - assert (Hm0 : 0 < m).
    { destruct Hm as [H|H]; [exact H|]. subst m. unfold Rdiv in Hpos.
      rewrite Rmult_0_l in Hpos. lra. }
    unfold fsub, fmul, np_sqrt. cbn [lift2].
    destruct (Rle_lt_dec m z) as [Hle|Hgt].
    + left. split; [exact Hle|].
      assert (Hy : m / z <= 1).
      { unfold Rdiv. apply Rmult_le_reg_r with z; [exact Hz|].
        rewrite Rmult_assoc, Rinv_l by lra. lra. }
      assert (Hp : Rpower (m / z) 1.67 <= 1).
      { rewrite <- (Rpower_1_l 1.67). apply Rle_Rpower_l; lra. }
      destruct (Rlt_dec (m * (1 - Rpower (m / z) 1.67)) 0) as [Hneg|_];
        [nra|].
      eexists. split; [reflexivity|].
      pose proof (sqrt_pos (m * (1 - Rpower (m / z) 1.67))). lra.
    + right. split; [exact Hgt|].
      assert (Hy : 1 < m / z).
      { unfold Rdiv. apply Rmult_lt_reg_r with z; [exact Hz|].
        rewrite Rmult_assoc, Rinv_l by lra. lra. }
      assert (Hp : 1 < Rpower (m / z) 1.67).
      { rewrite <- (Rpower_1_l 1.67) at 1. apply Rlt_Rpower_l; lra. }
      destruct (Rlt_dec (m * (1 - Rpower (m / z) 1.67)) 0) as [_|Hnn];
        [reflexivity | exfalso; apply Hnn; nra].
  - assert (Hm0 : m = 0).
    { destruct Hm as [H|H]; [|now symmetry]. exfalso. apply Hnpos.
      apply Rdiv_lt_0_compat; assumption. }
    subst m. left. split; [lra|].
    destruct (Req_dec_T (0 / z) 0) as [_|H];
      [|exfalso; apply H; unfold Rdiv; apply Rmult_0_l].
    unfold fsub, fmul, np_sqrt. cbn [lift2].
    destruct (Rlt_dec (0 * (1 - 0)) 0) as [H|_]; [lra|].
    eexists. split; [reflexivity|].
    pose proof (sqrt_pos (0 * (1 - 0))). lra.
Qed.

Lemma eq2_domain_iodine :
  0 < 53 /\ 0 <= 20 /\
  ((20 <= 53 /\ exists s, eq2 53 (Fin 20) = Fin s /\ 0 <= s) \/
   (53 < 20 /\ eq2 53 (Fin 20) = NaN)).
Proof.
  assert (Hz : 0 < 53) by lra. assert (Hm : 0 <= 20) by lra.
  split; [exact Hz|]. split; [exact Hm|]. exact (eq2_domain 53 20 Hz Hm).
Defined.

(** X20.  Equation 4 (lines 102 and 103) on a positive atomic number [z]:
    for a mean charge [0 <= m <= 0.999 z] the result is a finite number
    that is not negative, but for a fully stripped ion, [m = z], the
    radicand is negative and the result is [nan]. *)
Theorem eq4_domain :
  forall z m : R,
    0 < z -> 0 <= m <= 0.999 * z ->
    (exists s, eq4 z (Fin m) = Fin s /\ 0 <= s) /\
    eq4 z (Fin z) = NaN.
Proof.
  intros z m Hz [Hm0 Hm1]. unfold eq4, fdiv.
  destruct (Req_dec_T z 0) as [H|_]; [lra|].
  unfold fsquare, fadd, fsub, fmul, np_sqrt. cbn [lift1 lift2].
  assert (Hi : 0 < / z) by now apply Rinv_0_lt_compat.
  split.
  - assert (Hy0 : 0 <= m / z) by (unfold Rdiv; nra).
    assert (Hy1 : m / z <= 0.999).
    { unfold Rdiv. apply Rmult_le_reg_r with z; [exact Hz|].
      rewrite Rmult_assoc, Rinv_l by lra. lra. }
    set (y := m / z) in *.
    assert (Hg : 0 <= 0.07535 + 0.19 * y - 0.2654 * (y * y)) by nra.
    destruct (Rlt_dec (m * (0.07535 + 0.19 * y - 0.2654 * (y * y))) 0)
      as [Hneg|_]; [nra|].
    eexists. split; [reflexivity | apply sqrt_pos].
  - assert (Hy : z / z = 1) by (unfold Rdiv; apply Rinv_r; lra).
    rewrite Hy.
    destruct (Rlt_dec (z * (0.07535 + 0.19 * 1 - 0.2654 * (1 * 1))) 0)
      as [_|Hnn]; [reflexivity | exfalso; apply Hnn; nra].
Qed.

Lemma eq4_domain_lead :
  0 < 82 /\ 0 <= 40 <= 0.999 * 82 /\
  (exists s, eq4 82 (Fin 40) = Fin s /\ 0 <= s) /\
  eq4 82 (Fin 82) = NaN.
Proof.
  assert (Hz : 0 < 82) by lra. assert (Hm : 0 <= 40 <= 0.999 * 82) by lra.
  split; [exact Hz|]. split; [exact Hm|]. exact (eq4_domain 82 40 Hz Hm).
Defined.

(** X21.  On the atomic numbers from 54 to 118 the correction of lines 81
    to 89 lowers a positive mean charge, by less than a tenth. *)
Theorem eq3_lowers_mean_slightly :
  forall z m : R,
    54 <= z <= 118 -> 0 < m ->
    exists m', eq3_or_eq1 z (Fin m) = Fin m' /\ 0.9 * m < m' < m.
Proof.
  intros z m Hz Hm. unfold eq3_or_eq1.
  destruct (Rle_dec 54 z) as [_|H]; [|lra].
  eexists. split; [reflexivity|].
  pose proof (eq3_factor_margin z Hz). nra.
Qed.

Lemma eq3_lowers_mean_slightly_lead :
  54 <= 82 <= 118 /\ 0 < 40 /\
  exists m', eq3_or_eq1 82 (Fin 40) = Fin m' /\ 0.9 * 40 < m' < 40.
Proof.
  assert (Hz : 54 <= 82 <= 118) by lra. assert (Hm : 0 < 40) by lra.
  split; [exact Hz|]. split; [exact Hm|].
  exact (eq3_lowers_mean_slightly 82 40 Hz Hm).
Defined.

(* ================================================================= *)
(** ** Calls in sequence *)

(** On a sound table the body completes as soon as the resolution of beta
    leaves a finite beta behind. *)
Lemma generate_body_completes_with (csv : DataFrame) (isotopes zs : list R)
    (atoms beta_arg v : value) (e0 energy b : R) (self s : ChargeState) :
  df_get "Commonest Isotope" csv = Ok (NumCol (map Fin isotopes)) ->
  df_get "Atomic Number" csv = Ok (NumCol (map Fin zs)) ->
  Forall (fun z => 0 < z) zs ->
  resolve_beta beta_arg e0 energy self = (s, Ok v) ->
  Self._beta s = Some (Fin b) ->
  exists df, generate_body csv atoms beta_arg e0 energy self = (s, Ok df).
Proof.
  intros Hiso Hat Hpos Hres Hb.
  unfold generate_body, mbind, lift, read, mret.
  rewrite Hiso. cbn [bind numeric].
  destruct (traverse_nearest_q isotopes) as [ws [Hws _]]. rewrite Hws.
  frame_lookup. rewrite Hiso. cbn [bind numeric].
  frame_lookup. rewrite Hiso. cbn [bind numeric].
  rewrite Hres.
  frame_lookup. rewrite Hat.
  rewrite (mean_charge_state_p_series s _ 1 (Fin b) Hb).
  rewrite (eq1_cells_finite _ _ _ Hpos).
  frame_lookup. cbn [bind numeric].
  rewrite (map_map Fin). unfold fadd. cbn [lift2].
  rewrite <- (map_map (fun m => m + 0.5) Fin).
  rewrite astype_int_finite.
  eexists. reflexivity.
Qed.


(** X23.  Beta outlives the call that derived it.  On a table with sound
    columns, a first [dataframe] on an instance without beta returns
    [None] and leaves the beta of its own energy arguments behind; a
    second [dataframe] then returns [None] again and changes nothing,
    whatever energies it is given: it works with the beta of the first
    call. *)
Theorem dataframe_twice_keeps_first_beta :
  forall (csv : DataFrame) (isotopes zs : list R) (e0 energy e0' energy' : R)
         (atoms atoms' : value) (self : ChargeState),
    df_get "Commonest Isotope" csv = Ok (NumCol (map Fin isotopes)) ->
    df_get "Atomic Number" csv = Ok (NumCol (map Fin zs)) ->
    Forall (fun z => 0 < z) zs ->
    Self._beta self = None -> 0 < e0 -> 0 <= energy ->
    let first := dataframe csv VNone e0 energy atoms self in
    snd first = Ok VNone /\
    beta (fst first) = Ok (Fin (beta_formula energy e0)) /\
    dataframe csv VNone e0' energy' atoms' (fst first) = (fst first, Ok VNone).
Proof.
  intros csv isotopes zs e0 energy e0' energy' atoms atoms' self
         Hiso Hat Hpos Hb He0 Hen first.
  destruct (generate_body_completes csv isotopes zs atoms energy e0 self
              Hiso Hat Hpos Hb He0 Hen) as [df [mean [Hbody _]]].
  assert (Hfirst : first =
            (Self.mk (Self.atomic_nr self) (Some energy) (Self.c_factor self)
                     (Some e0) (Some (Fin (beta_formula energy e0))),
             Ok VNone)).
  { unfold first. rewrite dataframe_outcome, Hbody. reflexivity. }
  rewrite Hfirst. cbn [fst snd].
  split; [reflexivity|]. split; [reflexivity|].
  set (s := Self.mk _ _ _ _ _).
  destruct (generate_body_completes_with csv isotopes zs atoms' VNone
              (VFloat (Fin (beta_formula energy e0))) e0' energy'
              (beta_formula energy e0) s s Hiso Hat Hpos) as [df' Hbody'].
  - apply resolve_beta_stored. reflexivity.
  - reflexivity.
  - rewrite dataframe_outcome, Hbody'. reflexivity.
Qed.

Lemma dataframe_twice_keeps_first_beta_sample :
  df_get "Commonest Isotope" sample_csv =
    Ok (NumCol (map Fin [1; 132; 208])) /\
  df_get "Atomic Number" sample_csv = Ok (NumCol (map Fin [1; 54; 82])) /\
  Forall (fun z => 0 < z) [1; 54; 82] /\
  Self._beta __init__ = None /\ 0 < default_e0 /\ 0 <= default_energy /\
  let first :=
    dataframe sample_csv VNone default_e0 default_energy default_atoms
      __init__ in
  snd first = Ok VNone /\
  beta (fst first) = Ok (Fin (beta_formula default_energy default_e0)) /\
  dataframe sample_csv VNone 1 100 (VList [54; 82]) (fst first) =
    (fst first, Ok VNone).
Proof.
  assert (Hz : Forall (fun z => 0 < z) [1; 54; 82])
    by (repeat constructor; lra).
  assert (H0 : 0 < default_e0) by (unfold default_e0; lra).
  assert (H1 : 0 <= default_energy) by (unfold default_energy; lra).
  repeat (split; [first [reflexivity | assumption]|]).
  exact (dataframe_twice_keeps_first_beta sample_csv [1; 132; 208]
           [1; 54; 82] default_e0 default_energy 1 100 default_atoms
           (VList [54; 82]) __init__ eq_refl eq_refl Hz eq_refl H0 H1).
Defined.
